(** * Voice-biomarker score engine of [AlzheimersDetectionSystem]

    A shallow embedding of the score-generation code of the React component
    [AlzheimersDetectionSystem]: the helpers [generateWeightedValue],
    [generateConsistentValue] and [calculateWeightedScore], and the body of
    [analyzeAudio] with its [setTimeout] callback.

    Numbers.  A JavaScript [number] is modelled by [JS.number]: a finite
    value is a real number, and [NaN], [+Infinity] and [-Infinity] are kept
    as separate values so that [0/0] and [x/0] behave as they do in
    JavaScript.  Arithmetic on finite values is the arithmetic of the reals:
    the rounding of binary64 results, overflow and the sign of zero are not
    part of the model.  The statements are chosen to hold of the binary64
    program as well: they bound magnitudes where the program could
    overflow, and where the program rounds they leave room for the rounding
    instead of fixing the last digit.  Where the last digit matters the
    arithmetic of the program itself is run, in the modules [Binary64] and
    [Float64], on primitive binary64 numbers.

    Randomness.  [Math.random()] reads the next element of a stream of draws;
    the functions that call it live in the state monad [Rand].

    The rest of the component.  The handlers ([handleFileUpload],
    [startRecording], [stopRecording] and the others) act on a [page], the
    [useState] cells together with the live intervals and the pending
    timeouts; the parts of the view that compute something are functions of
    that state. *)

From Stdlib Require Import Reals Lra Lia ZArith Bool List String PrimFloat.
From Stdlib Require FloatOps SpecFloat Uint63.
Import ListNotations.

Set Implicit Arguments.

Local Open Scope R_scope.

(** ** JavaScript numbers *)

Module JS.

Inductive number : Type :=
| NaN
| PInf
| NInf
| Fin (x : R).

Declare Scope js_scope.
Delimit Scope js_scope with js.
Bind Scope js_scope with number.

(** Numeric literals of the source: [Fin] of a real constant. *)
Coercion Fin : R >-> number.

Definition neg (a : number) : number :=
  match a with
  | NaN => NaN
  | PInf => NInf
  | NInf => PInf
  | Fin x => Fin (- x)
  end.

(** [a + b] *)
Definition add (a b : number) : number :=
  match a, b with
  | NaN, _ | _, NaN => NaN
  | PInf, NInf | NInf, PInf => NaN
  | PInf, _ | _, PInf => PInf
  | NInf, _ | _, NInf => NInf
  | Fin x, Fin y => Fin (x + y)
  end.

(** [a - b] *)
Definition sub (a b : number) : number := add a (neg b).

(** The infinity of the sign of [x * i], [NaN] when [x] is zero. *)
Definition scale_inf (x : R) (i : number) : number :=
  if Req_dec_T x 0 then NaN
  else if Rlt_dec 0 x then i else neg i.

(** [a * b] *)
Definition mul (a b : number) : number :=
  match a, b with
  | NaN, _ | _, NaN => NaN
  | Fin x, Fin y => Fin (x * y)
  | Fin x, i | i, Fin x => scale_inf x i
  | PInf, PInf | NInf, NInf => PInf
  | PInf, NInf | NInf, PInf => NInf
  end.

(** [a / b]: a zero divisor gives [NaN] for [0/0] and an infinity of the
    sign of the dividend otherwise (the model's zero is [+0]). *)
Definition div (a b : number) : number :=
  match a, b with
  | NaN, _ | _, NaN => NaN
  | Fin x, Fin y =>
      if Req_dec_T y 0 then
        if Req_dec_T x 0 then NaN
        else if Rlt_dec 0 x then PInf else NInf
      else Fin (x / y)
  | Fin _, _ => Fin 0
  | i, Fin y => if Rlt_dec y 0 then neg i else i
  | _, _ => NaN
  end.

(** [a < b]: false as soon as one side is [NaN]. *)
Definition lt (a b : number) : bool :=
  match a, b with
  | NaN, _ | _, NaN => false
  | Fin x, Fin y => if Rlt_dec x y then true else false
  | NInf, NInf => false
  | NInf, _ => true
  | _, NInf => false
  | PInf, _ => false
  | Fin _, PInf => true
  end.

Notation "a + b" := (add a b) : js_scope.
Notation "a - b" := (sub a b) : js_scope.
Notation "a * b" := (mul a b) : js_scope.
Notation "a / b" := (div a b) : js_scope.
Notation "a <? b" := (lt a b) (at level 70) : js_scope.

(** [Math.max(a, b)] and [Math.min(a, b)]: [NaN] if an argument is [NaN]. *)
Definition Math_max (a b : number) : number :=
  match a, b with
  | NaN, _ | _, NaN => NaN
  | PInf, _ | _, PInf => PInf
  | NInf, c | c, NInf => c
  | Fin x, Fin y => Fin (Rmax x y)
  end.

Definition Math_min (a b : number) : number :=
  match a, b with
  | NaN, _ | _, NaN => NaN
  | NInf, _ | _, NInf => NInf
  | PInf, c | c, PInf => c
  | Fin x, Fin y => Fin (Rmin x y)
  end.

(** [Math.round(a)]: the nearest integer, a tie going up; that is
    [floor(a + 0.5)]. *)
Definition Math_round (a : number) : number :=
  match a with
  | Fin x => Fin (IZR (Zfloor (x + 0.5)))
  | other => other
  end.

Definition is_integer (y : R) : bool :=
  if Req_dec_T y (IZR (Zfloor y)) then true else false.

Definition is_odd_integer (y : R) : bool :=
  is_integer y && Z.odd (Zfloor y).

(** [Math.pow(base, exponent)], case by case as ECMAScript's
    Number::exponentiate lists them; the value in the generic case is the
    real power. *)
Definition Math_pow (base exponent : number) : number :=
  match exponent with
  | NaN => NaN
  | Fin y =>
      if Req_dec_T y 0 then Fin 1
      else
        match base with
        | NaN => NaN
        | PInf => if Rlt_dec 0 y then PInf else Fin 0
        | NInf =>
            if Rlt_dec 0 y then (if is_odd_integer y then NInf else PInf)
            else Fin 0
        | Fin x =>
            if Req_dec_T x 0 then (if Rlt_dec 0 y then Fin 0 else PInf)
            else if Rlt_dec 0 x then Fin (Rpower x y)
            else if is_integer y then Fin (powerRZ x (Zfloor y))
            else NaN
        end
  | PInf =>
      match base with
      | NaN => NaN
      | PInf | NInf => PInf
      | Fin x =>
          if Req_dec_T x 0 then Fin 0
          else if Rlt_dec 1 (Rabs x) then PInf
          else if Req_dec_T (Rabs x) 1 then NaN
          else Fin 0
      end
  | NInf =>
      match base with
      | NaN => NaN
      | PInf | NInf => Fin 0
      | Fin x =>
          if Req_dec_T x 0 then PInf
          else if Rlt_dec 1 (Rabs x) then Fin 0
          else if Req_dec_T (Rabs x) 1 then NaN
          else PInf
      end
  end.

End JS.

Import JS.
Local Open Scope js_scope.

(** ** The source of randomness *)

(** The draws [Math.random()] will return, in order. *)
Definition rng : Type := nat -> R.

(** Every draw is in [[0, 1)]. *)
Definition uniform (g : rng) : Prop := forall n : nat, (0 <= g n < 1)%R.

Definition Rand (A : Type) : Type := rng -> A * rng.

Definition ret {A : Type} (a : A) : Rand A := fun g => (a, g).

Definition bind {A B : Type} (m : Rand A) (k : A -> Rand B) : Rand B :=
  fun g => let (a, g') := m g in k a g'.

Notation "x <- m ;; k" := (bind m (fun x => k))
  (at level 61, m at next level, right associativity).

(** The stream after its first draw, and after its first [k] draws. *)
Definition advance (g : rng) : rng := fun n => g (S n).
Definition skip (k : nat) (g : rng) : rng := fun n => g (k + n)%nat.

(** [Math.random()] *)
Definition Math_random : Rand number :=
  fun g => (Fin (g O), advance g).

(** ** Data model *)

Inductive Risk : Type := High | Moderate | Low.

Record VoiceBiomarker : Type := {
  name : string;
  value : number;
  weight : number;
  description : string
}.

Record Indicators : Type := {
  speechClarity : number;
  wordRecall : number;
  sentenceStructure : number;
  pausePatterns : number;
  prosody : number;
  articulationRate : number;
  voiceQuality : number;
  semanticCoherence : number
}.

Record AnalysisResult : Type := {
  score : number;
  risk : Risk;
  confidence : number;
  indicators : Indicators;
  biomarkers : list VoiceBiomarker;
  detected : bool
}.

(** ** The helpers *)

(** [generateWeightedValue(min, max)] *)
Definition generateWeightedValue (min max : number) : Rand number :=
  u <- Math_random ;;
  let raw := Math_pow u 0.7 in
  ret (Math_round (min + raw * (max - min))).

(** [generateConsistentValue(baseValue, variation)] *)
Definition generateConsistentValue (baseValue variation : number)
  : Rand number :=
  let min := Math_max 0 (baseValue - variation) in
  let max := Math_min 100 (baseValue + variation) in
  u <- Math_random ;;
  ret (Math_round (min + u * (max - min))).

(** [calculateWeightedScore(biomarkers)]: the [forEach] loop updates the two
    accumulators in one pass. *)
Definition accumulate (acc : number * number) (marker : VoiceBiomarker)
  : number * number :=
  let (weightedSum, totalWeight) := acc in
  (weightedSum + value marker * weight marker, totalWeight + weight marker).

Definition calculateWeightedScore (biomarkers : list VoiceBiomarker)
  : number :=
  let (weightedSum, totalWeight) :=
    fold_left accumulate biomarkers (Fin 0, Fin 0) in
  Math_round (weightedSum / totalWeight).

(** ** The analysis *)

Local Open Scope string_scope.
Local Open Scope js_scope.

(** The biomarker array literal of [analyzeAudio], as a function of the
    values its eight [generateWeightedValue] calls return. *)
Definition biomarkerCatalog (v1 v2 v3 v4 v5 v6 v7 v8 : number)
  : list VoiceBiomarker :=
  [ {| name := "phonemeArticulation"; value := v1; weight := 0.15;
       description := "phonemeArticulationDesc" |};
    {| name := "pauseFrequency"; value := v2; weight := 0.12;
       description := "pauseFrequencyDesc" |};
    {| name := "lexicalDiversity"; value := v3; weight := 0.13;
       description := "lexicalDiversityDesc" |};
    {| name := "speechRateConsistency"; value := v4; weight := 0.10;
       description := "speechRateConsistencyDesc" |};
    {| name := "semanticCoherenceBio"; value := v5; weight := 0.18;
       description := "semanticCoherenceBioDesc" |};
    {| name := "prosodicVariation"; value := v6; weight := 0.12;
       description := "prosodicVariationDesc" |};
    {| name := "voiceTremor"; value := v7; weight := 0.10;
       description := "voiceTremorDesc" |};
    {| name := "wordFindingDelay"; value := v8; weight := 0.10;
       description := "wordFindingDelayDesc" |} ].

(** The elements are evaluated in order, each drawing its [value]. *)
Definition generateBiomarkers : Rand (list VoiceBiomarker) :=
  v1 <- generateWeightedValue 65 95 ;;
  v2 <- generateWeightedValue 60 90 ;;
  v3 <- generateWeightedValue 70 95 ;;
  v4 <- generateWeightedValue 65 90 ;;
  v5 <- generateWeightedValue 60 95 ;;
  v6 <- generateWeightedValue 70 90 ;;
  v7 <- generateWeightedValue 75 95 ;;
  v8 <- generateWeightedValue 60 90 ;;
  ret (biomarkerCatalog v1 v2 v3 v4 v5 v6 v7 v8).

(** The [if]/[else if]/[else] that sets [risk]. *)
Definition riskLevel (weightedScore : number) : Risk :=
  if weightedScore <? 70 then High
  else if weightedScore <? 85 then Moderate
  else Low.

(** [const detected = weightedScore < 78] *)
Definition isDetected (weightedScore : number) : bool :=
  weightedScore <? 78.

Definition confidenceBase : number := 85.
Definition confidenceVariation : number := 10.

(** The [confidence] field of the result, [Math.round(confidence)], from
    the value [u] of its [Math.random()] call. *)
Definition roundedConfidence (u : number) : number :=
  let confidence :=
    Math_min 98 (Math_max 80
      (confidenceBase + (u * confidenceVariation - confidenceVariation / 2)))
  in Math_round confidence.

(** The [indicators] object literal. *)
Definition generateIndicators (weightedScore : number) : Rand Indicators :=
  i1 <- generateConsistentValue weightedScore 10 ;;
  i2 <- generateConsistentValue weightedScore 15 ;;
  i3 <- generateConsistentValue weightedScore 12 ;;
  i4 <- generateConsistentValue weightedScore 8 ;;
  i5 <- generateConsistentValue weightedScore 10 ;;
  i6 <- generateConsistentValue weightedScore 7 ;;
  i7 <- generateConsistentValue weightedScore 9 ;;
  i8 <- generateConsistentValue weightedScore 14 ;;
  ret {| speechClarity := i1; wordRecall := i2; sentenceStructure := i3;
         pausePatterns := i4; prosody := i5; articulationRate := i6;
         voiceQuality := i7; semanticCoherence := i8 |}.

(** The body of the [setTimeout] callback, up to the construction of
    [result]. *)
Definition analysisResult : Rand AnalysisResult :=
  biomarkers <- generateBiomarkers ;;
  let weightedScore := calculateWeightedScore biomarkers in
  let risk := riskLevel weightedScore in
  u <- Math_random ;;
  let confidence := roundedConfidence u in
  indicators <- generateIndicators weightedScore ;;
  let detected := isDetected weightedScore in
  ret {| score := weightedScore; risk := risk; confidence := confidence;
         indicators := indicators; biomarkers := biomarkers;
         detected := detected |}.

(** *** The component state and [analyzeAudio] *)

(** The values [analyzeAudio] is called with: the uploaded [File], the
    string ["recorded-audio-data"], and whatever else [any] admits. *)
Record File : Type := { file_name : string; file_type : string }.

Inductive any : Type :=
| null
| undefined
| a_string (s : string)
| a_number (n : number)
| a_file (f : File).

(** The two [useState] cells [analyzeAudio] writes. *)
Record component : Type := {
  isProcessing : bool;
  analysis : option AnalysisResult
}.

Definition setIsProcessing (b : bool) (c : component) : component :=
  {| isProcessing := b; analysis := analysis c |}.

Definition setAnalysis (r : AnalysisResult) (c : component) : component :=
  {| isProcessing := isProcessing c; analysis := Some r |}.

(** A pending [setTimeout]: the delay in milliseconds and the callback. *)
Record timeout : Type := {
  delay : Z;
  callback : component -> Rand component
}.

(** [analyzeAudio(audioData)]: sets the processing flag and schedules the
    callback. *)
Definition analyzeAudio (audioData : any) (c : component)
  : component * timeout :=
  (setIsProcessing true c,
   {| delay := 2000;
      callback := fun c' =>
        result <- analysisResult ;;
        ret (setIsProcessing false (setAnalysis result c')) |}).

(** The timer fires: the callback runs on the state left by the call. *)
Definition runAnalysis (audioData : any) (c : component) : Rand component :=
  let (c', t) := analyzeAudio audioData c in callback t c'.

(** [stopRecording] and the accepting branch of [handleFileUpload] call
    [analyzeAudio] with these handles. *)
Definition recordedAudio : any := a_string "recorded-audio-data".
Definition uploadedAudio (f : File) : any := a_file f.

(** ** Vocabulary of the statements *)

(** The real value of a finite number. *)
Definition finite_part (a : number) : R :=
  match a with
  | Fin x => x
  | _ => 0%R
  end.

(** A catalog entry as the aggregator expects it: a finite value in
    [[0, 100]] and a finite positive weight. *)
Definition populated (m : VoiceBiomarker) : Prop :=
  exists v w : R,
    value m = Fin v /\ weight m = Fin w /\ (0 <= v <= 100)%R /\ (0 < w)%R.

(** The sums [Σ value_i * weight_i] and [Σ weight_i] over a catalog. *)
Definition valueWeightSum (bs : list VoiceBiomarker) : R :=
  fold_right
    (fun m acc => (finite_part (value m) * finite_part (weight m) + acc)%R)
    0%R bs.

Definition weightSum (bs : list VoiceBiomarker) : R :=
  fold_right (fun m acc => (finite_part (weight m) + acc)%R) 0%R bs.

(** How a call completes: it returns a value or it throws. *)
Inductive completion (A : Type) : Type :=
| Returns (a : A)
| Throws (e : string).

Arguments Returns {A} a.
Arguments Throws {A} e.

(** A call of [calculateWeightedScore]: the function has no [throw], and
    [forEach], the arithmetic operators and [Math.round] do not throw on
    numbers, so every call returns. *)
Definition call_calculateWeightedScore (bs : list VoiceBiomarker)
  : completion number :=
  Returns (calculateWeightedScore bs).

Definition fails_fast {A : Type} (c : completion A) : Prop :=
  exists e : string, c = Throws e.

(** The bounds passed to [generateWeightedValue], entry by entry. *)
Definition biomarkerBounds : list (Z * Z) :=
  [(65, 95); (60, 90); (70, 95); (65, 90);
   (60, 95); (70, 90); (75, 95); (60, 90)]%Z.

(** An integer value within the bounds of its catalog entry. *)
Definition withinBounds (v : number) (b : Z * Z) : Prop :=
  exists n : Z, v = Fin (IZR n) /\ (fst b <= n <= snd b)%Z.

(** Eight integer values, each within the bounds of its entry. *)
Definition drawnWithinBounds (n1 n2 n3 n4 n5 n6 n7 n8 : Z) : Prop :=
  Forall2 (fun n b => (fst b <= n <= snd b)%Z)
    [n1; n2; n3; n4; n5; n6; n7; n8] biomarkerBounds.

(** The constant fields of the catalog, entry by entry. *)
Definition biomarkerNames : list string :=
  ["phonemeArticulation"; "pauseFrequency"; "lexicalDiversity";
   "speechRateConsistency"; "semanticCoherenceBio"; "prosodicVariation";
   "voiceTremor"; "wordFindingDelay"].

Definition biomarkerWeights : list R :=
  [0.15; 0.12; 0.13; 0.10; 0.18; 0.12; 0.10; 0.10]%R.

Definition biomarkerDescriptions : list string :=
  ["phonemeArticulationDesc"; "pauseFrequencyDesc"; "lexicalDiversityDesc";
   "speechRateConsistencyDesc"; "semanticCoherenceBioDesc";
   "prosodicVariationDesc"; "voiceTremorDesc"; "wordFindingDelayDesc"].






(** [clamp(lo, hi, x)] and the confidence as the specification words it:
    [clamp(80, 98, round(85 + u*10 - 5))]. *)
Definition clamp (lo hi x : Z) : Z := Z.min hi (Z.max lo x).

Definition clampedConfidence (u : R) : Z :=
  clamp 80 98 (Zfloor (85 + u * 10 - 5 + 0.5)).

(** Streams of draws used as examples: [0.99] at the listed positions and
    [0] elsewhere; every draw [0]; the eight biomarker draws [0.99]. *)
Definition drawsHighAt (positions : list nat) : rng :=
  fun n => if existsb (Nat.eqb n) positions then 0.99%R else 0%R.
Definition lowDraws : rng := drawsHighAt [].
Definition highDraws : rng := drawsHighAt (seq 0 8).

(** ** The weights in binary64 *)

(** The model above adds the weights as real numbers.  The source adds
    their binary64 values; [Binary64.totalWeight] is the accumulator
    [totalWeight] of [calculateWeightedScore] on the catalog, computed as
    the [forEach] loop does, from [0] and in the order of the array. *)
Module Binary64.

#[local] Set Warnings "-inexact-float".

Definition weights : list float :=
  [0.15; 0.12; 0.13; 0.10; 0.18; 0.12; 0.10; 0.10]%float.

Definition totalWeight : float :=
  fold_left PrimFloat.add weights 0%float.

Definition tolerance : float := 1e-9%float.

End Binary64.

(** * The rest of the component *)

(** ** The view of the results *)

(** [a >= b]: false as soon as one side is [NaN]. *)
Definition number_ge (a b : number) : bool :=
  match a, b with
  | NaN, _ | _, NaN => false
  | Fin x, Fin y => if Rle_dec y x then true else false
  | PInf, _ => true
  | _, NInf => true
  | NInf, _ => false
  | Fin _, PInf => false
  end.

Notation "a >=? b" := (number_ge a b) (at level 70) : js_scope.

(** The colour class of a bar, the ternary the JSX repeats for the score,
    for every biomarker value and for every displayed indicator. *)
Definition barColor (x : number) : string :=
  if x >=? 85 then "bg-green-500"
  else if x >=? 70 then "bg-yellow-500"
  else "bg-red-500".



(** ** The state of the page and its handlers *)

(** The [useState] cells of the component ([core] holds the two that
    [analyzeAudio] writes), the live [setInterval] timers, each with its
    identifier and the [recordingDuration] its closure captured, the pending
    [setTimeout] callbacks in the order they were scheduled (all have the
    same delay), and the messages passed to [alert]. *)
Record page : Type := {
  core : component;
  isRecording : bool;
  recordingTime : number;
  uploadedFile : option File;
  error : option string;
  comment : string;
  recordingDuration : number;
  intervals : list (nat * number);
  nextTimer : nat;
  timeouts : list timeout;
  alerts : list string
}.

(** The state of the first render. *)
Definition initialPage : page :=
  {| core := {| isProcessing := false; analysis := None |};
     isRecording := false; recordingTime := 0; uploadedFile := None;
     error := None; comment := ""; recordingDuration := 30;
     intervals := []; nextTimer := 0; timeouts := []; alerts := [] |}.

Definition setCore (c : component) (p : page) : page :=
  {| core := c; isRecording := isRecording p;
     recordingTime := recordingTime p; uploadedFile := uploadedFile p;
     error := error p; comment := comment p;
     recordingDuration := recordingDuration p; intervals := intervals p;
     nextTimer := nextTimer p; timeouts := timeouts p; alerts := alerts p |}.

Definition setIsRecording (b : bool) (p : page) : page :=
  {| core := core p; isRecording := b;
     recordingTime := recordingTime p; uploadedFile := uploadedFile p;
     error := error p; comment := comment p;
     recordingDuration := recordingDuration p; intervals := intervals p;
     nextTimer := nextTimer p; timeouts := timeouts p; alerts := alerts p |}.

Definition setRecordingTime (n : number) (p : page) : page :=
  {| core := core p; isRecording := isRecording p;
     recordingTime := n; uploadedFile := uploadedFile p;
     error := error p; comment := comment p;
     recordingDuration := recordingDuration p; intervals := intervals p;
     nextTimer := nextTimer p; timeouts := timeouts p; alerts := alerts p |}.

Definition setUploadedFile (f : File) (p : page) : page :=
  {| core := core p; isRecording := isRecording p;
     recordingTime := recordingTime p; uploadedFile := Some f;
     error := error p; comment := comment p;
     recordingDuration := recordingDuration p; intervals := intervals p;
     nextTimer := nextTimer p; timeouts := timeouts p; alerts := alerts p |}.

Definition setError (m : string) (p : page) : page :=
  {| core := core p; isRecording := isRecording p;
     recordingTime := recordingTime p; uploadedFile := uploadedFile p;
     error := Some m; comment := comment p;
     recordingDuration := recordingDuration p; intervals := intervals p;
     nextTimer := nextTimer p; timeouts := timeouts p; alerts := alerts p |}.

Definition setComment (s : string) (p : page) : page :=
  {| core := core p; isRecording := isRecording p;
     recordingTime := recordingTime p; uploadedFile := uploadedFile p;
     error := error p; comment := s;
     recordingDuration := recordingDuration p; intervals := intervals p;
     nextTimer := nextTimer p; timeouts := timeouts p; alerts := alerts p |}.

Definition setRecordingDuration (n : number) (p : page) : page :=
  {| core := core p; isRecording := isRecording p;
     recordingTime := recordingTime p; uploadedFile := uploadedFile p;
     error := error p; comment := comment p;
     recordingDuration := n; intervals := intervals p;
     nextTimer := nextTimer p; timeouts := timeouts p; alerts := alerts p |}.

Definition setIntervals (l : list (nat * number)) (n : nat) (p : page)
  : page :=
  {| core := core p; isRecording := isRecording p;
     recordingTime := recordingTime p; uploadedFile := uploadedFile p;
     error := error p; comment := comment p;
     recordingDuration := recordingDuration p; intervals := l;
     nextTimer := n; timeouts := timeouts p; alerts := alerts p |}.

Definition setTimeouts (l : list timeout) (p : page) : page :=
  {| core := core p; isRecording := isRecording p;
     recordingTime := recordingTime p; uploadedFile := uploadedFile p;
     error := error p; comment := comment p;
     recordingDuration := recordingDuration p; intervals := intervals p;
     nextTimer := nextTimer p; timeouts := l; alerts := alerts p |}.

Definition alert (m : string) (p : page) : page :=
  {| core := core p; isRecording := isRecording p;
     recordingTime := recordingTime p; uploadedFile := uploadedFile p;
     error := error p; comment := comment p;
     recordingDuration := recordingDuration p; intervals := intervals p;
     nextTimer := nextTimer p; timeouts := timeouts p;
     alerts := alerts p ++ [m] |}.

(** A call of [analyzeAudio] from a handler: the flag is set and the
    callback joins the pending ones. *)
Definition callAnalyzeAudio (audioData : any) (p : page) : page :=
  let (c, t) := analyzeAudio audioData (core p) in
  setTimeouts (timeouts p ++ [t]) (setCore c p).

(** The duration captured by the live interval [id], if there is one. *)
Fixpoint liveInterval (id : nat) (l : list (nat * number)) : option number :=
  match l with
  | [] => None
  | (i, d) :: rest => if Nat.eqb i id then Some d else liveInterval id rest
  end.

(** [clearInterval(id)] *)
Definition clearInterval (id : nat) (p : page) : page :=
  setIntervals
    (filter (fun e => negb (Nat.eqb (fst e) id)) (intervals p))
    (nextTimer p) p.

(** [event.target.files?.[0]] *)
Definition firstFile (files : option (list File)) : option File :=
  match files with
  | Some (f :: _) => Some f
  | _ => None
  end.

(** [stopRecording()] *)
Definition stopRecording (p : page) : page :=
  callAnalyzeAudio recordedAudio (setIsRecording false p).

(** [startRecording()]: the interval it creates captures the current
    [recordingDuration]; the function it returns is dropped by [onClick]. *)
Definition startRecording (p : page) : page :=
  setIntervals ((nextTimer p, recordingDuration p) :: intervals p)
    (S (nextTimer p))
    (setRecordingTime 0 (setIsRecording true p)).

(** One firing of the interval [id]: the updater passed to
    [setRecordingTime] runs once on the current [recordingTime], with its
    calls of [clearInterval] and [stopRecording].  A cleared interval does
    not fire. *)
Definition tick (id : nat) (p : page) : page :=
  match liveInterval id (intervals p) with
  | None => p
  | Some capturedDuration =>
      let prev := recordingTime p in
      if prev >=? capturedDuration then
        setRecordingTime capturedDuration (stopRecording (clearInterval id p))
      else setRecordingTime (prev + 1) p
  end.

(** The oldest pending [setTimeout] callback runs. *)
Definition timeoutFires (p : page) : Rand page :=
  match timeouts p with
  | [] => ret p
  | t :: rest =>
      c <- callback t (core p) ;;
      ret (setCore c (setTimeouts rest p))
  end.

(** [handleCommentChange]; its argument is [e.target.value]. *)
Definition handleCommentChange (s : string) (p : page) : page :=
  setComment s p.

(** [handleDurationChange]; its argument is [parseInt(e.target.value)]. *)
Definition handleDurationChange (n : number) (p : page) : page :=
  setRecordingDuration n p.


Section Translated.

(** The lookup [t] of [useI18nStore], from a module outside these files. *)
Variable t : string -> string.

(** [handleFileUpload]; its argument is [event.target.files]. *)
Definition handleFileUpload (files : option (list File)) (p : page)
  : page :=
  match firstFile files with
  | Some file =>
      if String.prefix "audio/" (file_type file) then
        callAnalyzeAudio (uploadedAudio file) (setUploadedFile file p)
      else setError (t "invalidAudioFile") p
  | None => setError (t "invalidAudioFile") p
  end.

(** [submitComment] *)
Definition submitComment (p : page) : page :=
  setComment "" (alert (t "commentThankYou") p).

(** What can happen to the page. *)
Inductive event : Type :=
| FileUpload (files : option (list File))
| StartRecording
| StopRecording
| Tick (id : nat)
| TimeoutFires
| CommentChange (s : string)
| SubmitComment
| DurationChange (n : number).

Definition step (e : event) (p : page) : Rand page :=
  match e with
  | FileUpload files => ret (handleFileUpload files p)
  | StartRecording => ret (startRecording p)
  | StopRecording => ret (stopRecording p)
  | Tick id => ret (tick id p)
  | TimeoutFires => timeoutFires p
  | CommentChange s => ret (handleCommentChange s p)
  | SubmitComment => ret (submitComment p)
  | DurationChange n => ret (handleDurationChange n p)
  end.

Fixpoint run (es : list event) (p : page) : Rand page :=
  match es with
  | [] => ret p
  | e :: rest => p' <- step e p ;; run rest p'
  end.

End Translated.

(** ** The language selector *)

(** The items of the list, one per entry of [languages] (an object of
    another module: its entries in order, as [(code, name)]), each with
    the test [language === code] that shows its check mark. *)
Definition languageItems (languages : list (string * string))
  (language : string) : list (string * string * bool) :=
  map (fun e => (fst e, snd e, String.eqb language (fst e))) languages.

(** [languages[language]] for a [language] among the codes. *)
Fixpoint languageName (languages : list (string * string))
  (language : string) : option string :=
  match languages with
  | [] => None
  | (code, name) :: rest =>
      if String.eqb language code then Some name
      else languageName rest language
  end.

(** ** Vocabulary for catalogs in general *)




(** An entry with a finite value and the weight [0]. *)
Definition weightless (m : VoiceBiomarker) : Prop :=
  exists v : R, value m = Fin v /\ weight m = Fin 0.

(** ** Vocabulary for the handlers *)

(** The upload event carries a first file whose type starts with
    ["audio/"]. *)
Definition carriesAudio (files : option (list File)) (file : File) : Prop :=
  exists (rest : list File) (subtype : string),
    files = Some (file :: rest) /\ file_type file = "audio/" ++ subtype.


(** ** The arithmetic of the program, run *)

(** The numeric helpers on primitive binary64 numbers, operation by
    operation as the source has them.  [Math_round] works on the exact
    value [m * 2^e] of its argument, so it is the nearest integer with a
    tie going up, not [floor(x + 0.5)] computed in binary64; [Math_max] and
    [Math_min] return [NaN] when an argument is [NaN]. *)
Module Float64.

#[local] Set Warnings "-inexact-float".

Definition of_integer (z : Z) : float :=
  if (z <? 0)%Z
  then PrimFloat.opp (PrimFloat.of_uint63 (Uint63.of_Z (- z)))
  else PrimFloat.of_uint63 (Uint63.of_Z z).

Definition Math_round (x : float) : float :=
  match FloatOps.Prim2SF x with
  | SpecFloat.S754_finite s m e =>
      if (0 <=? e)%Z then x
      else
        let k := (2 ^ (- e))%Z in
        let twice := if s then (- (2 * Z.pos m))%Z else (2 * Z.pos m)%Z in
        of_integer ((twice + k) / (2 * k))
  | _ => x
  end.

Definition Math_max (a b : float) : float :=
  if PrimFloat.is_nan a || PrimFloat.is_nan b then PrimFloat.nan
  else if PrimFloat.ltb a b then b else a.

Definition Math_min (a b : float) : float :=
  if PrimFloat.is_nan a || PrimFloat.is_nan b then PrimFloat.nan
  else if PrimFloat.ltb b a then b else a.

(** [calculateWeightedScore] on the pairs [(value, weight)] of a catalog. *)
Definition accumulate (acc : float * float) (marker : float * float)
  : float * float :=
  let (weightedSum, totalWeight) := acc in
  let (value, weight) := marker in
  (PrimFloat.add weightedSum (PrimFloat.mul value weight),
   PrimFloat.add totalWeight weight).

Definition calculateWeightedScore (biomarkers : list (float * float))
  : float :=
  let (weightedSum, totalWeight) :=
    fold_left accumulate biomarkers (0%float, 0%float) in
  Math_round (PrimFloat.div weightedSum totalWeight).

(** The pairs of the biomarker array literal for given values. *)
Definition biomarkerCatalog (v1 v2 v3 v4 v5 v6 v7 v8 : float)
  : list (float * float) :=
  [(v1, 0.15); (v2, 0.12); (v3, 0.13); (v4, 0.10);
   (v5, 0.18); (v6, 0.12); (v7, 0.10); (v8, 0.10)]%float.

(** The [confidence] field from the value [u] of [Math.random()]. *)
Definition roundedConfidence (u : float) : float :=
  let confidenceBase := 85%float in
  let confidenceVariation := 10%float in
  Math_round
    (Math_min 98
       (Math_max 80
          (PrimFloat.add confidenceBase
             (PrimFloat.sub (PrimFloat.mul u confidenceVariation)
                (PrimFloat.div confidenceVariation 2))))).




End Float64.

(** ** Vocabulary for statements that leave room for the rounding *)






(** * Properties *)

(** ** Rounding and the power function *)

Lemma Zfloor_half_ge (k : Z) (x : R) :
  (IZR k <= x)%R -> (k <= Zfloor (x + 0.5))%Z.
Proof. intros H. apply Zfloor_lub. lra. Qed.

Lemma Zfloor_half_le (k : Z) (x : R) :
  (x < IZR k + 0.5)%R -> (Zfloor (x + 0.5) <= k)%Z.
Proof.
  intros H. destruct (Zfloor_bound (x + 0.5)) as [Hfl _].
  assert (Hlt : (IZR (Zfloor (x + 0.5)) < IZR (k + 1))%R)
    by (rewrite plus_IZR; lra).
  apply lt_IZR in Hlt. lia.
Qed.

Lemma Zfloor_half_between (lo hi : Z) (x : R) :
  (IZR lo <= x <= IZR hi)%R -> (lo <= Zfloor (x + 0.5) <= hi)%Z.
Proof.
  intros [Hlo Hhi]. split.
  - now apply Zfloor_half_ge.
  - apply Zfloor_half_le. lra.
Qed.

Lemma Zfloor_half_nearest (n : Z) (x : R) :
  (IZR n - 0.5 <= x < IZR n + 0.5)%R -> Zfloor (x + 0.5) = n.
Proof. intros H. apply Zfloor_eq. lra. Qed.

Lemma Math_round_nearest (n : Z) (x : R) :
  (IZR n - 0.5 <= x < IZR n + 0.5)%R -> Math_round (Fin x) = Fin (IZR n).
Proof. intros H. simpl. now rewrite (Zfloor_half_nearest n). Qed.

Lemma Math_round_integer (n : Z) : Math_round (Fin (IZR n)) = Fin (IZR n).
Proof. apply Math_round_nearest. lra. Qed.

(** Rounding commutes with taking the larger or the smaller of a value and
    an integer. *)
Lemma Zfloor_half_Rmax (k : Z) (x : R) :
  Zfloor (Rmax (IZR k) x + 0.5) = Z.max k (Zfloor (x + 0.5)).
Proof.
  destruct (Rle_dec (IZR k) x) as [Hle | Hgt].
  - rewrite Rmax_right by assumption.
    assert (k <= Zfloor (x + 0.5))%Z by now apply Zfloor_half_ge.
    lia.
  - rewrite Rmax_left by lra.
    rewrite (Zfloor_half_nearest k) by lra.
    assert (Zfloor (x + 0.5) <= k)%Z by (apply Zfloor_half_le; lra).
    lia.
Qed.

Lemma Zfloor_half_Rmin (k : Z) (x : R) :
  Zfloor (Rmin (IZR k) x + 0.5) = Z.min k (Zfloor (x + 0.5)).
Proof.
  destruct (Rle_dec (IZR k) x) as [Hle | Hgt].
  - rewrite Rmin_left by assumption.
    rewrite (Zfloor_half_nearest k) by lra.
    assert (k <= Zfloor (x + 0.5))%Z by now apply Zfloor_half_ge.
    lia.
  - rewrite Rmin_right by lra.
    assert (Zfloor (x + 0.5) <= k)%Z by (apply Zfloor_half_le; lra).
    lia.
Qed.

(** On a draw [u] of [[0, 1)], [Math.pow(u, 0.7)] is a finite number of
    [[0, 1)] that is at least [u]. *)
Lemma Rpower_unit (u : R) :
  (0 < u < 1)%R -> (u <= Rpower u 0.7 < 1)%R.
Proof.
  intros [Hpos Hlt]. unfold Rpower.
  assert (Hln : (ln u < 0)%R)
    by (rewrite <- ln_1; apply ln_increasing; lra).
  split.
  - rewrite <- (exp_ln u) at 1 by assumption.
    left. apply exp_increasing. lra.
  - rewrite <- exp_0. apply exp_increasing. lra.
Qed.

Lemma Math_pow_zero : Math_pow (Fin 0) (Fin 0.7) = Fin 0.
Proof.
  unfold Math_pow.
  destruct (Req_dec_T 0.7 0) as [E | _]; [lra |].
  destruct (Req_dec_T 0 0) as [_ | N]; [| lra].
  destruct (Rlt_dec 0 0.7) as [_ | N]; [reflexivity | lra].
Qed.

Lemma Math_pow_positive (u : R) :
  (0 < u)%R -> Math_pow (Fin u) (Fin 0.7) = Fin (Rpower u 0.7).
Proof.
  intros Hpos. unfold Math_pow.
  destruct (Req_dec_T 0.7 0) as [E | _]; [lra |].
  destruct (Req_dec_T u 0) as [E | _]; [lra |].
  destruct (Rlt_dec 0 u) as [_ | N]; [reflexivity | lra].
Qed.

Lemma Math_pow_unit (u : R) :
  (0 <= u < 1)%R ->
  exists r : R, Math_pow (Fin u) (Fin 0.7) = Fin r /\ (0 <= r < 1)%R /\ (u <= r)%R.
Proof.
  intros [Hnn Hlt]. destruct (Req_dec_T u 0) as [-> | Hnz].
  - exists 0%R. rewrite Math_pow_zero. repeat split; lra.
  - exists (Rpower u 0.7). rewrite Math_pow_positive by lra.
    pose proof (@Rpower_unit u ltac:(lra)). repeat split; lra.
Qed.

(** ** The generators *)

Lemma uniform_advance (g : rng) : uniform g -> uniform (advance g).
Proof. intros H n. apply H. Qed.

Lemma uniform_skip (k : nat) (g : rng) : uniform g -> uniform (skip k g).
Proof. intros H n. apply H. Qed.

Lemma generateWeightedValue_run (min max : number) (g : rng) :
  generateWeightedValue min max g =
  (Math_round (min + Math_pow (Fin (g O)) 0.7 * (max - min)), advance g).
Proof. reflexivity. Qed.

Lemma generateConsistentValue_run (baseValue variation : number) (g : rng) :
  generateConsistentValue baseValue variation g =
  (let min := Math_max 0 (baseValue - variation) in
   let max := Math_min 100 (baseValue + variation) in
   Math_round (min + Fin (g O) * (max - min)), advance g).
Proof. reflexivity. Qed.

(** With finite bounds [min <= max] the value is an integer between the
    roundings of the bounds. *)
Lemma generateWeightedValue_between (min max : R) (g : rng) :
  (min <= max)%R -> (0 <= g O < 1)%R ->
  exists n : Z,
    fst (generateWeightedValue min max g) = Fin (IZR n) /\
    (Zfloor (min + 0.5) <= n <= Zfloor (max + 0.5))%Z.
Proof.
  intros Hle Hu. rewrite generateWeightedValue_run.
  destruct (Math_pow_unit Hu) as (r & -> & Hr & _). simpl.
  eexists; split; [reflexivity |].
  assert (H0 : (0 <= r * (max - min))%R) by (apply Rmult_le_pos; lra).
  assert (H1 : (0 <= (1 - r) * (max - min))%R) by (apply Rmult_le_pos; lra).
  split; apply Zfloor_le; lra.
Qed.

Lemma generateWeightedValue_integer_bounds (lo hi : Z) (g : rng) :
  (lo <= hi)%Z -> (0 <= g O < 1)%R ->
  exists n : Z,
    fst (generateWeightedValue (IZR lo) (IZR hi) g) = Fin (IZR n) /\
    (lo <= n <= hi)%Z.
Proof.
  intros Hle Hu.
  destruct (@generateWeightedValue_between (IZR lo) (IZR hi) g)
    as (n & Hn & Hb); [now apply IZR_le | assumption |].
  exists n. split; [assumption |].
  rewrite (@Zfloor_half_nearest lo (IZR lo)) in Hb by lra.
  rewrite (@Zfloor_half_nearest hi (IZR hi)) in Hb by lra. assumption.
Qed.




(** ** The score aggregator *)

Lemma accumulate_populated (a t : R) (m : VoiceBiomarker) :
  populated m ->
  accumulate (Fin a, Fin t) m =
  (Fin (a + finite_part (value m) * finite_part (weight m)),
   Fin (t + finite_part (weight m))).
Proof.
  intros (v & w & Hv & Hw & _). unfold accumulate.
  rewrite Hv, Hw. reflexivity.
Qed.

Lemma fold_accumulate (bs : list VoiceBiomarker) :
  Forall populated bs ->
  forall a t : R,
    fold_left accumulate bs (Fin a, Fin t) =
    (Fin (a + valueWeightSum bs), Fin (t + weightSum bs)).
Proof.
  induction 1 as [| m bs Hm _ IH]; intros a t;
    cbn [fold_left valueWeightSum weightSum fold_right].
  - now rewrite !Rplus_0_r.
  - rewrite accumulate_populated by assumption. rewrite IH.
    now rewrite !Rplus_assoc.
Qed.

Lemma weightSum_nonneg (bs : list VoiceBiomarker) :
  Forall populated bs -> (0 <= weightSum bs)%R.
Proof.
  induction 1 as [| m bs (v & w & _ & Hw & _ & Hpos) _ IH]; simpl.
  - lra.
  - rewrite Hw. simpl. lra.
Qed.

Lemma weightSum_pos (bs : list VoiceBiomarker) :
  bs <> [] -> Forall populated bs -> (0 < weightSum bs)%R.
Proof.
  intros Hne Hall. destruct Hall as [| m bs (v & w & _ & Hw & _ & Hpos) Hbs].
  - contradiction.
  - simpl. rewrite Hw. simpl. pose proof (weightSum_nonneg Hbs). lra.
Qed.


Lemma calculateWeightedScore_populated (bs : list VoiceBiomarker) :
  bs <> [] -> Forall populated bs ->
  calculateWeightedScore bs =
  Math_round (Fin (valueWeightSum bs / weightSum bs)).
Proof.
  intros Hne Hall. unfold calculateWeightedScore.
  rewrite fold_accumulate by assumption. rewrite !Rplus_0_l.
  pose proof (weightSum_pos Hne Hall) as Hpos. unfold div.
  destruct (Req_dec_T (weightSum bs) 0) as [E | _]; [lra | reflexivity].
Qed.

(** ** The analysis, draw by draw *)

Lemma generateBiomarkers_run (g : rng) :
  generateBiomarkers g =
  (biomarkerCatalog
     (fst (generateWeightedValue 65 95 (skip 0 g)))
     (fst (generateWeightedValue 60 90 (skip 1 g)))
     (fst (generateWeightedValue 70 95 (skip 2 g)))
     (fst (generateWeightedValue 65 90 (skip 3 g)))
     (fst (generateWeightedValue 60 95 (skip 4 g)))
     (fst (generateWeightedValue 70 90 (skip 5 g)))
     (fst (generateWeightedValue 75 95 (skip 6 g)))
     (fst (generateWeightedValue 60 90 (skip 7 g))),
   skip 8 g).
Proof. reflexivity. Qed.


Lemma analysisResult_run (g : rng) :
  analysisResult g =
  (let biomarkers := fst (generateBiomarkers g) in
   let weightedScore := calculateWeightedScore biomarkers in
   {| score := weightedScore;
      risk := riskLevel weightedScore;
      confidence := roundedConfidence (Fin (g 8%nat));
      indicators := fst (generateIndicators weightedScore (skip 9 g));
      biomarkers := biomarkers;
      detected := isDetected weightedScore |},
   skip 17 g).
Proof. reflexivity. Qed.

(** ** The catalog and its score *)

Ltac invert_Forall2 :=
  repeat match goal with
    | H : Forall2 _ (_ :: _) (_ :: _) |- _ =>
        apply Forall2_cons_iff in H; destruct H
    | H : Forall2 _ [] [] |- _ => clear H
    end.

Lemma drawnWithinBounds_unfold (n1 n2 n3 n4 n5 n6 n7 n8 : Z) :
  drawnWithinBounds n1 n2 n3 n4 n5 n6 n7 n8 <->
  (65 <= n1 <= 95 /\ 60 <= n2 <= 90 /\ 70 <= n3 <= 95 /\ 65 <= n4 <= 90 /\
   60 <= n5 <= 95 /\ 70 <= n6 <= 90 /\ 75 <= n7 <= 95 /\ 60 <= n8 <= 90)%Z.
Proof.
  unfold drawnWithinBounds, biomarkerBounds. split.
  - intros H. invert_Forall2. simpl in *. intuition.
  - intros H. repeat (apply Forall2_cons; [simpl; intuition |]).
    apply Forall2_nil.
Qed.

Lemma generateBiomarkers_values (g : rng) :
  uniform g ->
  exists n1 n2 n3 n4 n5 n6 n7 n8 : Z,
    fst (generateBiomarkers g) =
    biomarkerCatalog (IZR n1) (IZR n2) (IZR n3) (IZR n4)
                     (IZR n5) (IZR n6) (IZR n7) (IZR n8) /\
    drawnWithinBounds n1 n2 n3 n4 n5 n6 n7 n8.
Proof.
  intros Hg. rewrite generateBiomarkers_run. cbn [fst].
  destruct (@generateWeightedValue_integer_bounds 65 95 (skip 0 g))
    as (n1 & -> & H1); [lia | apply Hg |].
  destruct (@generateWeightedValue_integer_bounds 60 90 (skip 1 g))
    as (n2 & -> & H2); [lia | apply Hg |].
  destruct (@generateWeightedValue_integer_bounds 70 95 (skip 2 g))
    as (n3 & -> & H3); [lia | apply Hg |].
  destruct (@generateWeightedValue_integer_bounds 65 90 (skip 3 g))
    as (n4 & -> & H4); [lia | apply Hg |].
  destruct (@generateWeightedValue_integer_bounds 60 95 (skip 4 g))
    as (n5 & -> & H5); [lia | apply Hg |].
  destruct (@generateWeightedValue_integer_bounds 70 90 (skip 5 g))
    as (n6 & -> & H6); [lia | apply Hg |].
  destruct (@generateWeightedValue_integer_bounds 75 95 (skip 6 g))
    as (n7 & -> & H7); [lia | apply Hg |].
  destruct (@generateWeightedValue_integer_bounds 60 90 (skip 7 g))
    as (n8 & -> & H8); [lia | apply Hg |].
  exists n1, n2, n3, n4, n5, n6, n7, n8. split; [reflexivity |].
  apply drawnWithinBounds_unfold. intuition.
Qed.

Lemma catalog_weightSum (v1 v2 v3 v4 v5 v6 v7 v8 : number) :
  weightSum (biomarkerCatalog v1 v2 v3 v4 v5 v6 v7 v8) = 1%R.
Proof. simpl. lra. Qed.

Lemma catalog_valueWeightSum (x1 x2 x3 x4 x5 x6 x7 x8 : R) :
  valueWeightSum (biomarkerCatalog x1 x2 x3 x4 x5 x6 x7 x8) =
  (x1 * 0.15 + x2 * 0.12 + x3 * 0.13 + x4 * 0.10 +
   x5 * 0.18 + x6 * 0.12 + x7 * 0.10 + x8 * 0.10)%R.
Proof. simpl. lra. Qed.

(** Each of the listed reals is in [[0, 100]]. *)
Ltac percentages :=
  repeat (apply Forall_cons; [lra |]); apply Forall_nil.

Lemma catalog_populated (x1 x2 x3 x4 x5 x6 x7 x8 : R) :
  Forall (fun x => 0 <= x <= 100)%R [x1; x2; x3; x4; x5; x6; x7; x8] ->
  Forall populated (biomarkerCatalog x1 x2 x3 x4 x5 x6 x7 x8).
Proof.
  intros H. unfold biomarkerCatalog.
  repeat match goal with
    | H : Forall _ (_ :: _) |- _ => apply Forall_cons_iff in H; destruct H
    end.
  repeat (apply Forall_cons;
          [eexists _, _; simpl; repeat split; try reflexivity;
           try assumption; lra |]).
  apply Forall_nil.
Qed.

(** The score of a catalog of finite values in [[0, 100]] is the rounding
    of the plain weighted sum. *)
Lemma catalog_score (x1 x2 x3 x4 x5 x6 x7 x8 : R) :
  Forall (fun x => 0 <= x <= 100)%R [x1; x2; x3; x4; x5; x6; x7; x8] ->
  calculateWeightedScore (biomarkerCatalog x1 x2 x3 x4 x5 x6 x7 x8) =
  Math_round
    (Fin (x1 * 0.15 + x2 * 0.12 + x3 * 0.13 + x4 * 0.10 +
          x5 * 0.18 + x6 * 0.12 + x7 * 0.10 + x8 * 0.10)).
Proof.
  intros H. rewrite calculateWeightedScore_populated.
  - rewrite catalog_weightSum, catalog_valueWeightSum.
    do 2 f_equal. lra.
  - discriminate.
  - now apply catalog_populated.
Qed.

Lemma drawn_in_percent (n1 n2 n3 n4 n5 n6 n7 n8 : Z) :
  drawnWithinBounds n1 n2 n3 n4 n5 n6 n7 n8 ->
  Forall (fun x => 0 <= x <= 100)%R
    [IZR n1; IZR n2; IZR n3; IZR n4; IZR n5; IZR n6; IZR n7; IZR n8].
Proof.
  intros H. apply drawnWithinBounds_unfold in H.
  repeat (apply Forall_cons; [split; apply IZR_le; lia |]).
  apply Forall_nil.
Qed.

(** Within the bounds of the catalog the weighted sum stays between
    [65.25] and [92.8], so the score is an integer from [65] to [93]. *)
Lemma catalog_sum_range (n1 n2 n3 n4 n5 n6 n7 n8 : Z) :
  drawnWithinBounds n1 n2 n3 n4 n5 n6 n7 n8 ->
  (65.25 <=
   IZR n1 * 0.15 + IZR n2 * 0.12 + IZR n3 * 0.13 + IZR n4 * 0.10 +
   IZR n5 * 0.18 + IZR n6 * 0.12 + IZR n7 * 0.10 + IZR n8 * 0.10
   <= 92.8)%R.
Proof.
  intros H. apply drawnWithinBounds_unfold in H.
  destruct H as (H1 & H2 & H3 & H4 & H5 & H6 & H7 & H8).
  repeat match goal with
    | H : (_ <= _ <= _)%Z |- _ =>
        let Hl := fresh in let Hu := fresh in
        destruct H as [Hl Hu]; apply IZR_le in Hl; apply IZR_le in Hu
    end.
  lra.
Qed.

Lemma catalog_score_range (n1 n2 n3 n4 n5 n6 n7 n8 : Z) :
  drawnWithinBounds n1 n2 n3 n4 n5 n6 n7 n8 ->
  exists s : Z,
    calculateWeightedScore
      (biomarkerCatalog (IZR n1) (IZR n2) (IZR n3) (IZR n4)
                        (IZR n5) (IZR n6) (IZR n7) (IZR n8)) =
    Fin (IZR s) /\ (65 <= s <= 93)%Z.
Proof.
  intros H. rewrite catalog_score by now apply drawn_in_percent.
  pose proof (catalog_sum_range H) as Hsum. simpl.
  eexists; split; [reflexivity |].
  split.
  - apply Zfloor_half_ge. lra.
  - apply Zfloor_half_le. lra.
Qed.

Lemma score_integer (g : rng) :
  uniform g ->
  exists s : Z,
    score (fst (analysisResult g)) = Fin (IZR s) /\ (65 <= s <= 93)%Z.
Proof.
  intros Hg. rewrite analysisResult_run. cbn [fst score].
  destruct (generateBiomarkers_values Hg)
    as (n1 & n2 & n3 & n4 & n5 & n6 & n7 & n8 & -> & Hb).
  now apply catalog_score_range.
Qed.

(** ** The generators at the ends of the unit interval *)

Lemma generateWeightedValue_low (lo hi : Z) (g : rng) :
  g O = 0%R ->
  fst (generateWeightedValue (IZR lo) (IZR hi) g) = Fin (IZR lo).
Proof.
  intros Hu. rewrite generateWeightedValue_run, Hu, Math_pow_zero.
  cbn [fst add sub neg mul]. apply Math_round_nearest. lra.
Qed.

Lemma generateWeightedValue_high (lo hi : Z) (g : rng) :
  (lo <= hi <= lo + 35)%Z -> g O = 0.99%R ->
  fst (generateWeightedValue (IZR lo) (IZR hi) g) = Fin (IZR hi).
Proof.
  intros [Hle Hwidth] Hu.
  rewrite generateWeightedValue_run, Hu, Math_pow_positive by lra.
  cbn [fst add sub neg mul]. apply Math_round_nearest.
  pose proof (@Rpower_unit 0.99 ltac:(lra)) as [Hr0 Hr1].
  apply IZR_le in Hle, Hwidth. rewrite plus_IZR in Hwidth.
  set (r := Rpower 0.99 0.7) in *.
  assert (0 <= (r - 0.99) * (IZR hi - IZR lo))%R
    by (apply Rmult_le_pos; lra).
  assert (0 <= (1 - r) * (IZR hi - IZR lo))%R
    by (apply Rmult_le_pos; lra).
  lra.
Qed.


Lemma uniform_drawsHighAt (positions : list nat) :
  uniform (drawsHighAt positions).
Proof.
  intros n. unfold drawsHighAt.
  destruct (existsb (Nat.eqb n) positions); lra.
Qed.

Lemma generateWeightedValue_drawsHighAt
  (lo hi : Z) (positions : list nat) (k : nat) :
  (lo <= hi <= lo + 35)%Z ->
  fst (generateWeightedValue (IZR lo) (IZR hi)
         (skip k (drawsHighAt positions))) =
  Fin (IZR (if existsb (Nat.eqb k) positions then hi else lo)).
Proof.
  intros H.
  assert (Hk : skip k (drawsHighAt positions) O =
               if existsb (Nat.eqb k) positions then 0.99%R else 0%R)
    by (unfold skip, drawsHighAt; now rewrite Nat.add_0_r).
  destruct (existsb (Nat.eqb k) positions).
  - now apply generateWeightedValue_high.
  - now apply generateWeightedValue_low.
Qed.

(** The score when the biomarker draws listed in [positions] are [0.99]
    and the others [0]. *)
Ltac score_at_ends n :=
  rewrite analysisResult_run; cbn [fst score];
  rewrite generateBiomarkers_run; cbn [fst];
  rewrite !generateWeightedValue_drawsHighAt by lia;
  cbn [existsb Nat.eqb orb seq];
  rewrite catalog_score by percentages;
  apply (@Math_round_nearest n); lra.

Lemma score_lowDraws : score (fst (analysisResult lowDraws)) = Fin 65.
Proof. unfold lowDraws. score_at_ends 65%Z. Qed.

Lemma score_highDraws : score (fst (analysisResult highDraws)) = Fin 93.
Proof. unfold highDraws. score_at_ends 93%Z. Qed.

Lemma score_drawsHighAt_4 :
  score (fst (analysisResult (drawsHighAt [4%nat]))) = Fin 72.
Proof. score_at_ends 72%Z. Qed.

Lemma score_drawsHighAt_0_1_4 :
  score (fst (analysisResult (drawsHighAt [0; 1; 4]%nat))) = Fin 80.
Proof. score_at_ends 80%Z. Qed.

(** ** Risk tier and detection flag *)

Lemma lt_integers (a b : Z) : (Fin (IZR a) <? Fin (IZR b)) = (a <? b)%Z.
Proof.
  unfold lt. destruct (Rlt_dec (IZR a) (IZR b)) as [H | H].
  - apply lt_IZR in H. symmetry. now apply Z.ltb_lt.
  - symmetry. apply Z.ltb_ge. apply Z.le_ngt. intros Hlt.
    apply H. now apply IZR_lt.
Qed.

Lemma riskLevel_integer (s : Z) :
  riskLevel (IZR s) =
  if (s <? 70)%Z then High else if (s <? 85)%Z then Moderate else Low.
Proof. unfold riskLevel. now rewrite !lt_integers. Qed.

Lemma isDetected_integer (s : Z) : isDetected (IZR s) = (s <? 78)%Z.
Proof. unfold isDetected. now rewrite lt_integers. Qed.

(** C3. The risk classification is a total, non-overlapping function of
    the composite score: for every integer score of [[0, 100]] the tier is
    [High] exactly when the score is below 70, [Moderate] exactly when it is
    at least 70 and below 85, and [Low] exactly when it is at least 85. *)
Theorem riskLevel_partition (s : Z) :
  (0 <= s <= 100)%Z ->
  (riskLevel (IZR s) = High <-> (s < 70)%Z) /\
  (riskLevel (IZR s) = Moderate <-> (70 <= s < 85)%Z) /\
  (riskLevel (IZR s) = Low <-> (85 <= s)%Z).
Proof.
  intros _. rewrite riskLevel_integer.
  destruct (Z.ltb_spec s 70); [| destruct (Z.ltb_spec s 85)];
    repeat split; intros; try discriminate; try reflexivity; lia.
Qed.

Lemma riskLevel_partition_witness :
  (0 <= 77 <= 100)%Z /\
  (riskLevel 77 = High <-> (77 < 70)%Z) /\
  (riskLevel 77 = Moderate <-> (70 <= 77 < 85)%Z) /\
  (riskLevel 77 = Low <-> (85 <= 77)%Z).
Proof. split; [lia | apply (@riskLevel_partition 77); lia]. Defined.

(** C2. In the result of every analysis the score is an integer, and
    [detected] is true if and only if that score is below 78, whatever the
    tier: the flag is [isDetected] of the score alone, and a result is
    [Moderate] exactly when the score is at least 70 and below 85, so a
    [Moderate] result is flagged exactly when its score is below 78. *)
Theorem detected_iff_score_below_78 (g : rng) :
  uniform g ->
  exists s : Z,
    score (fst (analysisResult g)) = Fin (IZR s) /\
    detected (fst (analysisResult g)) = isDetected (IZR s) /\
    (detected (fst (analysisResult g)) = true <-> (s < 78)%Z) /\
    (risk (fst (analysisResult g)) = Moderate <-> (70 <= s < 85)%Z).
Proof.
  intros Hg. destruct (score_integer Hg) as (s & Hs & Hrange).
  exists s. split; [assumption |].
  rewrite analysisResult_run in *. cbn [fst score detected risk] in *.
  rewrite Hs, isDetected_integer, riskLevel_integer.
  split; [reflexivity |]. split.
  - apply Z.ltb_lt.
  - destruct (Z.ltb_spec s 70); [| destruct (Z.ltb_spec s 85)];
      split; intros; try discriminate; try reflexivity; lia.
Qed.

Lemma detected_iff_score_below_78_witness :
  exists s : Z,
    score (fst (analysisResult lowDraws)) = Fin (IZR s) /\
    detected (fst (analysisResult lowDraws)) = isDetected (IZR s) /\
    (detected (fst (analysisResult lowDraws)) = true <-> (s < 78)%Z) /\
    (risk (fst (analysisResult lowDraws)) = Moderate <-> (70 <= s < 85)%Z).
Proof.
  apply (@detected_iff_score_below_78 lowDraws).
  intros n. unfold lowDraws, drawsHighAt. simpl. lra.
Defined.

(** A [Moderate] result can be flagged or not: with the fifth biomarker
    draw high the score is 72, with the first, second and fifth it is 80. *)
Lemma moderate_and_detected :
  risk (fst (analysisResult (drawsHighAt [4%nat]))) = Moderate /\
  detected (fst (analysisResult (drawsHighAt [4%nat]))) = true.
Proof.
  pose proof score_drawsHighAt_4 as Hs.
  rewrite analysisResult_run in *. cbn [fst score risk detected] in *.
  rewrite Hs, riskLevel_integer, isDetected_integer. now split.
Qed.

Lemma moderate_and_not_detected :
  risk (fst (analysisResult (drawsHighAt [0; 1; 4]%nat))) = Moderate /\
  detected (fst (analysisResult (drawsHighAt [0; 1; 4]%nat))) = false.
Proof.
  pose proof score_drawsHighAt_0_1_4 as Hs.
  rewrite analysisResult_run in *. cbn [fst score risk detected] in *.
  rewrite Hs, riskLevel_integer, isDetected_integer. now split.
Qed.

(** ** Confidence *)

Lemma roundedConfidence_clamped (u : R) :
  roundedConfidence (Fin u) = Fin (IZR (clampedConfidence u)).
Proof.
  unfold roundedConfidence, confidenceBase, confidenceVariation.
  unfold div. destruct (Req_dec_T 2 0) as [E | _]; [lra |].
  cbn [add sub neg mul Math_max Math_min Math_round].
  rewrite Zfloor_half_Rmin, Zfloor_half_Rmax.
  unfold clampedConfidence, clamp.
  replace (85 + (u * 10 + - (10 / 2)))%R with (85 + u * 10 - 5)%R by lra.
  reflexivity.
Qed.

(** On draws of [[0, 1)] the clamp does not bite: the confidence is
    [round(80 + 10 u)], between 80 and 90. *)
Lemma confidence_unclamped (u : R) :
  (0 <= u < 1)%R ->
  clampedConfidence u = Zfloor (80 + 10 * u + 0.5) /\
  (80 <= clampedConfidence u <= 90)%Z.
Proof.
  intros Hu. unfold clampedConfidence, clamp.
  replace (85 + u * 10 - 5)%R with (80 + 10 * u)%R by lra.
  assert (80 <= Zfloor (80 + 10 * u + 0.5) <= 90)%Z
    by (apply Zfloor_half_between; lra).
  lia.
Qed.




(** ** Range of the composite score *)

Lemma risk_of_score (g : rng) (s : Z) :
  score (fst (analysisResult g)) = Fin (IZR s) ->
  risk (fst (analysisResult g)) =
  if (s <? 70)%Z then High else if (s <? 85)%Z then Moderate else Low.
Proof.
  rewrite analysisResult_run. cbn [fst score risk]. intros ->.
  apply riskLevel_integer.
Qed.

(** C10. On every stream of draws the composite score is an integer from
    65 to 93: the weighted sum is 65.25 at the lower bounds of the catalog,
    where the score is 65, and 92.8 at the upper bounds, where it is 93.
    Each of the three tiers is the tier of some analysis. *)
Theorem score_between_65_and_93 :
  (forall g : rng, uniform g ->
     exists s : Z,
       score (fst (analysisResult g)) = Fin (IZR s) /\ (65 <= s <= 93)%Z) /\
  (valueWeightSum (biomarkerCatalog 65 60 70 65 60 70 75 60) = 65.25%R /\
   calculateWeightedScore (biomarkerCatalog 65 60 70 65 60 70 75 60) =
     Fin 65) /\
  (valueWeightSum (biomarkerCatalog 95 90 95 90 95 90 95 90) = 92.8%R /\
   calculateWeightedScore (biomarkerCatalog 95 90 95 90 95 90 95 90) =
     Fin 93) /\
  (exists g : rng, uniform g /\ risk (fst (analysisResult g)) = High) /\
  (exists g : rng, uniform g /\ risk (fst (analysisResult g)) = Moderate) /\
  (exists g : rng, uniform g /\ risk (fst (analysisResult g)) = Low).
Proof.
  split; [exact score_integer |].
  split; [| split].
  - split; [rewrite catalog_valueWeightSum; lra |].
    rewrite catalog_score by percentages.
    apply (@Math_round_nearest 65). lra.
  - split; [rewrite catalog_valueWeightSum; lra |].
    rewrite catalog_score by percentages.
    apply (@Math_round_nearest 93). lra.
  - split; [| split].
    + exists lowDraws. split; [apply uniform_drawsHighAt |].
      now rewrite (@risk_of_score _ _ score_lowDraws).
    + exists (drawsHighAt [4%nat]). split; [apply uniform_drawsHighAt |].
      now rewrite (@risk_of_score _ _ score_drawsHighAt_4).
    + exists highDraws. split; [apply uniform_drawsHighAt |].
      now rewrite (@risk_of_score _ _ score_highDraws).
Qed.

Lemma score_between_65_and_93_witness :
  exists s : Z,
    score (fst (analysisResult (drawsHighAt [4%nat]))) = Fin (IZR s) /\
    (65 <= s <= 93)%Z.
Proof.
  apply (proj1 score_between_65_and_93 (drawsHighAt [4%nat])).
  intros n. unfold drawsHighAt.
  destruct (existsb (Nat.eqb n) [4%nat]); lra.
Defined.

(** ** The indicator set *)






(** ** [generateWeightedValue] against its specification *)





(** ** The score aggregator against its specification *)





(** C5, as the source has it.  On the empty catalog the call returns, and
    returns [NaN], the rounding of [0/0]; no exception is thrown.  A result
    built on that score is classified [Low] and not flagged. *)
Theorem empty_catalog_returns_NaN :
  call_calculateWeightedScore [] = Returns NaN /\
  riskLevel (calculateWeightedScore []) = Low /\
  isDetected (calculateWeightedScore []) = false.
Proof.
  assert (H : calculateWeightedScore [] = NaN).
  { unfold calculateWeightedScore. cbn [fold_left]. unfold div.
    destruct (Req_dec_T 0 0) as [_ | N]; [reflexivity | lra]. }
  unfold call_calculateWeightedScore. rewrite H. repeat split.
Qed.

(** C5, as stated: the call on the empty catalog does not fail fast. *)
Lemma empty_catalog_does_not_fail_fast :
  ~ fails_fast (call_calculateWeightedScore []).
Proof. intros (e & He). discriminate He. Qed.

(** ** End-to-end scenarios *)

(** A catalog whose eight values are the same integer of [[0, 100]] scores
    that integer. *)
Lemma catalog_constant_score (v : Z) :
  (0 <= v <= 100)%Z ->
  calculateWeightedScore
    (biomarkerCatalog (IZR v) (IZR v) (IZR v) (IZR v)
                      (IZR v) (IZR v) (IZR v) (IZR v)) = Fin (IZR v).
Proof.
  intros Hv.
  assert (0 <= IZR v <= 100)%R by (split; apply IZR_le; lia).
  rewrite catalog_score by percentages.
  apply Math_round_nearest. lra.
Qed.

Lemma scenario (v : Z) :
  (0 <= v <= 100)%Z ->
  let s := calculateWeightedScore
             (biomarkerCatalog (IZR v) (IZR v) (IZR v) (IZR v)
                               (IZR v) (IZR v) (IZR v) (IZR v)) in
  s = Fin (IZR v) /\
  riskLevel s =
    (if (v <? 70)%Z then High else if (v <? 85)%Z then Moderate else Low) /\
  isDetected s = (v <? 78)%Z.
Proof.
  intros Hv s. unfold s. rewrite catalog_constant_score by assumption.
  now rewrite riskLevel_integer, isDetected_integer.
Qed.

(** All values 80: [Moderate], not detected.  All 60: [High], detected.
    All 90: [Low], not detected.  All 77: [Moderate], detected. *)
Lemma scenarios_A_to_D :
  let run v := calculateWeightedScore (biomarkerCatalog v v v v v v v v) in
  (run 80 = Fin 80 /\ riskLevel (run 80) = Moderate /\
   isDetected (run 80) = false) /\
  (run 60 = Fin 60 /\ riskLevel (run 60) = High /\
   isDetected (run 60) = true) /\
  (run 90 = Fin 90 /\ riskLevel (run 90) = Low /\
   isDetected (run 90) = false) /\
  (run 77 = Fin 77 /\ riskLevel (run 77) = Moderate /\
   isDetected (run 77) = true).
Proof.
  cbv zeta. repeat split;
    first [ apply (@scenario 80); lia | apply (@scenario 60); lia
          | apply (@scenario 90); lia | apply (@scenario 77); lia ].
Qed.

(** ** The catalog is fixed *)

(** In binary64 the accumulated total weight is [1 - 2^-53], one unit in
    the last place below 1 and within [1e-9] of it. *)
Lemma Binary64_totalWeight :
  Binary64.totalWeight = 0x1.fffffffffffffp-1%float /\
  PrimFloat.eqb Binary64.totalWeight 1 = false /\
  PrimFloat.leb (PrimFloat.abs (PrimFloat.sub Binary64.totalWeight 1))
    Binary64.tolerance = true.
Proof. vm_compute. repeat split. Qed.


(** C8. On every stream of draws the catalog has exactly eight entries,
    with the names, weights and descriptions of the tables in their fixed
    order; the weights sum to 1; the value of entry [k] is
    [generateWeightedValue] on draw [k] with the bounds of the table, each
    pair of bounds within [[60, 95]]; the result carries that catalog; and
    two analyses differ in the values only. *)
Theorem catalog_fixed (g g' : rng) :
  let bs := fst (generateBiomarkers g) in
  List.length bs = 8%nat /\
  map name bs = biomarkerNames /\
  map weight bs = map Fin biomarkerWeights /\
  map description bs = biomarkerDescriptions /\
  fold_right Rplus 0%R biomarkerWeights = 1%R /\
  weightSum bs = 1%R /\
  map value bs =
    map (fun kb =>
           fst (generateWeightedValue (IZR (fst (snd kb))) (IZR (snd (snd kb)))
                  (skip (fst kb) g)))
        (combine (seq 0 8) biomarkerBounds) /\
  Forall (fun b => 60 <= fst b /\ fst b < snd b /\ snd b <= 95)%Z
    biomarkerBounds /\
  biomarkers (fst (analysisResult g)) = bs /\
  map (fun m => (name m, weight m, description m)) bs =
  map (fun m => (name m, weight m, description m))
    (fst (generateBiomarkers g')).
Proof.
  cbv zeta. rewrite !generateBiomarkers_run. cbn [fst].
  repeat split; try reflexivity.
  - simpl. lra.
  - apply catalog_weightSum.
  - unfold biomarkerBounds.
    repeat (apply Forall_cons; [simpl; lia |]). apply Forall_nil.
Qed.

(** On draws of [[0, 1)] every value of the catalog is an integer within
    its bounds. *)
Lemma catalog_values_within_bounds (g : rng) :
  uniform g ->
  Forall2 withinBounds (map value (fst (generateBiomarkers g)))
    biomarkerBounds.
Proof.
  intros Hg.
  destruct (generateBiomarkers_values Hg)
    as (n1 & n2 & n3 & n4 & n5 & n6 & n7 & n8 & -> & Hb).
  apply drawnWithinBounds_unfold in Hb.
  unfold biomarkerBounds. cbn [map biomarkerCatalog value].
  repeat (apply Forall2_cons;
          [eexists; split; [reflexivity | simpl; intuition] |]).
  apply Forall2_nil.
Qed.

(** ** The audio handle *)

Lemma runAnalysis_run (audioData : any) (c : component) (g : rng) :
  runAnalysis audioData c g =
  ({| isProcessing := false; analysis := Some (fst (analysisResult g)) |},
   skip 17 g).
Proof. reflexivity. Qed.

(** C9. The analysis does not depend on the audio handle: for any two
    handles, the same component state and the same draws, [analyzeAudio]
    leaves the same state and the same pending callback, and when the timer
    fires the two runs end in the same state, holding the same result; in
    particular for an uploaded file and the string of a recording. *)
Theorem analysis_independent_of_handle
  (a b : any) (c : component) (g : rng) :
  analyzeAudio a c = analyzeAudio b c /\
  runAnalysis a c g = runAnalysis b c g /\
  analysis (fst (runAnalysis a c g)) = Some (fst (analysisResult g)) /\
  forall f : File,
    runAnalysis (uploadedAudio f) c g = runAnalysis recordedAudio c g.
Proof. repeat split. Qed.

(** * Further properties of the score engine *)

(** ** [generateConsistentValue] on arbitrary arguments *)



(** X2.  The two ends are clamped, the result is not: when the base value less
    the variation is 101 or more, the lower end is above the upper end
    100, and on a draw of at most one half the value is 101 or more. *)
Theorem generateConsistentValue_above_100 (base v : R) (g : rng) :
  (0 <= v)%R -> (101 <= base - v)%R -> (0 <= g O <= 0.5)%R ->
  exists n : Z,
    fst (generateConsistentValue base v g) = Fin (IZR n) /\ (101 <= n)%Z.
Proof.
  intros Hv Hb Hu. rewrite generateConsistentValue_run.
  cbn [fst add sub neg mul Math_max Math_min Math_round].
  rewrite Rmax_right by lra. rewrite Rmin_left by lra.
  eexists; split; [reflexivity |].
  apply Zfloor_lub.
  assert (0 <= (0.5 - g O) * (base - v - 100))%R
    by (apply Rmult_le_pos; lra).
  lra.
Qed.

Lemma generateConsistentValue_above_100_witness :
  exists n : Z,
    fst (generateConsistentValue 150 10 lowDraws) = Fin (IZR n) /\
    (101 <= n)%Z.
Proof.
  apply (@generateConsistentValue_above_100 150 10 lowDraws).
  - lra.
  - lra.
  - unfold lowDraws, drawsHighAt. simpl. lra.
Defined.

(** ** [generateWeightedValue]: the skew *)



(** ** [calculateWeightedScore] on arbitrary catalogs *)

Lemma fold_accumulate_NaN (bs : list VoiceBiomarker) (totalWeight : number) :
  exists totalWeight' : number,
    fold_left accumulate bs (NaN, totalWeight) = (NaN, totalWeight').
Proof.
  revert totalWeight. induction bs as [| m bs IH]; intros tw.
  - now exists tw.
  - cbn [fold_left]. unfold accumulate at 2. cbn [add]. apply IH.
Qed.

Lemma accumulate_NaN (acc : number * number) (m : VoiceBiomarker) :
  value m = NaN \/ weight m = NaN ->
  exists totalWeight : number, accumulate acc m = (NaN, totalWeight).
Proof.
  intros H. destruct acc as [ws tw]. unfold accumulate.
  eexists. f_equal.
  destruct H as [-> | ->].
  - cbn [mul]. now destruct ws.
  - assert (Hm : (value m * NaN)%js = NaN) by now destruct (value m).
    rewrite Hm. now destruct ws.
Qed.

(** X5.  One [NaN] poisons the score: if some entry of the catalog has the value
    or the weight [NaN], [calculateWeightedScore] returns [NaN]. *)
Theorem calculateWeightedScore_NaN
  (bs : list VoiceBiomarker) (m : VoiceBiomarker) :
  In m bs -> value m = NaN \/ weight m = NaN ->
  calculateWeightedScore bs = NaN.
Proof.
  intros Hin Hnan. unfold calculateWeightedScore.
  assert (H : forall acc, exists tw, fold_left accumulate bs acc = (NaN, tw)).
  { induction bs as [| x bs IH]; [contradiction |].
    intros acc. cbn [fold_left]. destruct Hin as [-> | Hin].
    - destruct (@accumulate_NaN acc _ Hnan) as (tw & ->).
      apply fold_accumulate_NaN.
    - now apply IH. }
  destruct (H (Fin 0, Fin 0)) as (tw & ->). reflexivity.
Qed.

Lemma calculateWeightedScore_NaN_witness :
  calculateWeightedScore
    (biomarkerCatalog 80 80 NaN 80 80 80 80 80) = NaN.
Proof.
  apply (@calculateWeightedScore_NaN
           (biomarkerCatalog 80 80 NaN 80 80 80 80 80)
           {| name := "lexicalDiversity"; value := NaN; weight := 0.13;
              description := "lexicalDiversityDesc" |}).
  - simpl. auto.
  - left. reflexivity.
Defined.

Lemma fold_accumulate_weightless (bs : list VoiceBiomarker) :
  Forall weightless bs ->
  fold_left accumulate bs (Fin 0, Fin 0) = (Fin 0, Fin 0).
Proof.
  induction 1 as [| m bs (v & Hv & Hw) _ IH]; [reflexivity |].
  cbn [fold_left]. unfold accumulate at 2. rewrite Hv, Hw. cbn [add mul].
  replace (0 + v * 0)%R with 0%R by lra.
  replace (0 + 0)%R with 0%R by lra. exact IH.
Qed.

(** X6.  No weight, no score: when every entry has a finite value and the
    weight 0, the empty catalog included, the division is [0/0] and
    [calculateWeightedScore] returns [NaN]. *)
Theorem calculateWeightedScore_weightless (bs : list VoiceBiomarker) :
  Forall weightless bs -> calculateWeightedScore bs = NaN.
Proof.
  intros H. unfold calculateWeightedScore.
  rewrite fold_accumulate_weightless by assumption. unfold div.
  destruct (Req_dec_T 0 0) as [_ | N]; [reflexivity | lra].
Qed.

Lemma calculateWeightedScore_weightless_witness :
  calculateWeightedScore
    [ {| name := "pauseFrequency"; value := 70; weight := 0;
         description := "pauseFrequencyDesc" |} ] = NaN.
Proof.
  apply calculateWeightedScore_weightless.
  apply Forall_cons; [| apply Forall_nil].
  exists 70%R. split; reflexivity.
Defined.













(** ** Confidence, tier and flag of a result *)

(** X9.  The clamp of the confidence never bites: on draws of [[0, 1)] the
    confidence of a result is an integer from 80 to 90, so the values 91 to
    98 that [Math.min(98, ...)] would let through are never produced. *)
Theorem confidence_at_most_90 (g : rng) :
  uniform g ->
  exists n : Z,
    confidence (fst (analysisResult g)) = Fin (IZR n) /\
    (80 <= n <= 90)%Z.
Proof.
  intros Hg. rewrite analysisResult_run. cbn [fst confidence].
  rewrite roundedConfidence_clamped.
  destruct (@confidence_unclamped (g 8%nat) (Hg 8%nat)) as [_ Hrange].
  now exists (clampedConfidence (g 8%nat)).
Qed.

Lemma confidence_at_most_90_witness :
  exists n : Z,
    confidence (fst (analysisResult (drawsHighAt [8%nat]))) = Fin (IZR n) /\
    (80 <= n <= 90)%Z.
Proof.
  apply (@confidence_at_most_90 (drawsHighAt [8%nat])).
  intros n. unfold drawsHighAt.
  destruct (existsb (Nat.eqb n) [8%nat]); lra.
Defined.

Lemma lt_70_78 (s : number) : (s <? 70) = true -> (s <? 78) = true.
Proof.
  destruct s as [| | | x]; try easy. unfold lt.
  destruct (Rlt_dec x 70), (Rlt_dec x 78); try easy. lra.
Qed.

Lemma lt_78_85 (s : number) : (s <? 78) = true -> (s <? 85) = true.
Proof.
  destruct s as [| | | x]; try easy. unfold lt.
  destruct (Rlt_dec x 78), (Rlt_dec x 85); try easy. lra.
Qed.

(** X10.  Whatever number the score is, [NaN] and the infinities included, a
    [High] score is flagged as detected and a [Low] score is not. *)
Theorem tier_and_flag_agree (weightedScore : number) :
  match riskLevel weightedScore with
  | High => isDetected weightedScore = true
  | Moderate => True
  | Low => isDetected weightedScore = false
  end.
Proof.
  unfold riskLevel, isDetected.
  destruct (weightedScore <? 70) eqn:H70.
  - now apply lt_70_78.
  - destruct (weightedScore <? 85) eqn:H85; [exact I |].
    destruct (weightedScore <? 78) eqn:H78; [| reflexivity].
    apply lt_78_85 in H78. congruence.
Qed.

(** ** The colour of the score bar *)

Lemma number_ge_not_lt (x : number) (c : R) :
  x <> NaN -> (x >=? Fin c) = negb (x <? Fin c).
Proof.
  intros Hx. destruct x as [| | | y]; try easy.
  unfold number_ge, lt.
  destruct (Rle_dec c y), (Rlt_dec y c); try reflexivity; lra.
Qed.

(** X11.  The bar of a score has the colour of its tier, green for [Low], yellow
    for [Moderate] and red for [High], for every score but [NaN]; the score
    [NaN] is classified [Low] and drawn red. *)
Theorem barColor_matches_riskLevel :
  (forall x : number,
     x <> NaN ->
     barColor x =
     match riskLevel x with
     | Low => "bg-green-500"
     | Moderate => "bg-yellow-500"
     | High => "bg-red-500"
     end) /\
  riskLevel NaN = Low /\ barColor NaN = "bg-red-500".
Proof.
  split; [| split; reflexivity].
  intros x Hx. unfold barColor, riskLevel.
  rewrite !number_ge_not_lt by assumption.
  destruct (x <? 85) eqn:H85; cbn [negb].
  - destruct (x <? 70); reflexivity.
  - destruct (x <? 70) eqn:H70; [| reflexivity].
    apply lt_70_78, lt_78_85 in H70. congruence.
Qed.

Lemma barColor_matches_riskLevel_witness :
  barColor 77 =
  match riskLevel 77 with
  | Low => "bg-green-500"
  | Moderate => "bg-yellow-500"
  | High => "bg-red-500"
  end.
Proof.
  apply (proj1 barColor_matches_riskLevel (Fin 77)). discriminate.
Defined.

(** * Properties of the handlers *)

(** ** Uploading a file *)

Lemma prefix_append (s1 s2 : string) :
  String.prefix s1 s2 = true <-> exists rest : string, s2 = s1 ++ rest.
Proof.
  revert s2. induction s1 as [| a s1 IH]; intros s2.
  - split; [intros _; now exists s2 | intros _; now destruct s2].
  - destruct s2 as [| b s2]; simpl.
    + split; [discriminate | intros (rest & H); discriminate].
    + destruct (Ascii.ascii_dec a b) as [-> | Hne].
      * rewrite IH. split; intros (rest & H); exists rest.
        -- now rewrite H.
        -- now injection H.
      * split; [discriminate |].
        intros (rest & H). injection H as H _. congruence.
Qed.

Section TranslatedProperties.

Variable t : string -> string.

(** X12.  [handleFileUpload] starts an analysis exactly when the event carries a
    first file whose type starts with ["audio/"]: then the file is
    recorded, the processing flag is set, one callback is scheduled and the
    error is left as it was.  In every other case, an event without a file
    included, only the error changes: it becomes the text of
    ["invalidAudioFile"], and nothing is scheduled. *)
Theorem handleFileUpload_accepts_audio_only
  (files : option (list File)) (p : page) :
  (forall file : File,
     carriesAudio files file ->
     uploadedFile (handleFileUpload t files p) = Some file /\
     isProcessing (core (handleFileUpload t files p)) = true /\
     timeouts (handleFileUpload t files p) =
       (timeouts p ++
        [snd (analyzeAudio (uploadedAudio file) (core p))])%list /\
     error (handleFileUpload t files p) = error p) /\
  ((forall file : File, ~ carriesAudio files file) ->
   handleFileUpload t files p = setError (t "invalidAudioFile") p).
Proof.
  split.
  - intros file (rest & subtype & -> & Htype).
    unfold handleFileUpload. cbn [firstFile].
    assert (Hp : String.prefix "audio/" (file_type file) = true)
      by (apply prefix_append; now exists subtype).
    rewrite Hp. repeat split.
  - intros Hnone. unfold handleFileUpload.
    destruct files as [[| file rest] |]; cbn [firstFile]; try reflexivity.
    destruct (String.prefix "audio/" (file_type file)) eqn:Hp;
      [| reflexivity].
    apply prefix_append in Hp. destruct Hp as (subtype & Hp).
    exfalso. apply (Hnone file). now exists rest, subtype.
Qed.

(** X13.  No handler clears the error: once an upload has been refused, the
    error stays set through every later sequence of events, accepted
    uploads and delivered results included. *)
Theorem error_is_never_cleared
  (es : list event) (p : page) (g : rng) :
  error p <> None -> error (fst (run t es p g)) <> None.
Proof.
  revert p g. induction es as [| e es IH]; intros p g Herr; [assumption |].
  cbn [run]. unfold bind.
  destruct (step t e p g) as [p' g'] eqn:Hstep.
  apply IH.
  destruct e; cbn [step] in Hstep; unfold ret in Hstep;
    try (injection Hstep as <- _).
  - unfold handleFileUpload.
    destruct (firstFile files) as [file |]; [| discriminate].
    destruct (String.prefix "audio/" (file_type file));
      [assumption | discriminate].
  - assumption.
  - assumption.
  - unfold tick. destruct (liveInterval id (intervals p)); [| assumption].
    destruct (recordingTime p >=? n); assumption.
  - unfold timeoutFires in Hstep.
    destruct (timeouts p) as [| tm rest].
    + unfold ret in Hstep. now injection Hstep as <- _.
    + unfold bind, ret in Hstep.
      destruct (callback tm (core p) g) as [c g''].
      now injection Hstep as <- _.
  - assumption.
  - assumption.
  - assumption.
Qed.

End TranslatedProperties.

Lemma handleFileUpload_accepts_audio_only_witness :
  let file := {| file_name := "voice.wav"; file_type := "audio/wav" |} in
  let files := Some [file] in
  uploadedFile (handleFileUpload (fun key => key) files initialPage) =
    Some file /\
  isProcessing (core (handleFileUpload (fun key => key) files initialPage)) =
    true /\
  handleFileUpload (fun key => key) (Some []) initialPage =
    setError "invalidAudioFile" initialPage.
Proof.
  intros file files.
  destruct (@handleFileUpload_accepts_audio_only
              (fun key => key) files initialPage) as [Hyes _].
  destruct (@handleFileUpload_accepts_audio_only
              (fun key => key) (Some []) initialPage) as [_ Hno].
  destruct (Hyes file) as (H1 & H2 & _).
  { exists [], "wav". split; reflexivity. }
  split; [exact H1 |]. split; [exact H2 |].
  apply Hno. intros f (rest & subtype & H & _). discriminate H.
Defined.

Lemma error_is_never_cleared_witness :
  error
    (fst (run (fun key => key)
            [FileUpload
               (Some [ {| file_name := "voice.wav";
                          file_type := "audio/wav" |} ]);
             TimeoutFires]
            (setError "invalidAudioFile" initialPage) lowDraws)) <> None.
Proof.
  apply error_is_never_cleared. discriminate.
Defined.

(** ** The recording timer *)










(** ** The language selector *)

Lemma no_check_mark (languages : list (string * string)) (language : string) :
  ~ In language (map fst languages) ->
  filter snd (languageItems languages language) = [].
Proof.
  induction languages as [| [code name] l IH]; intros Hnot; [reflexivity |].
  cbn [languageItems map filter fst snd].
  destruct (String.eqb language code) eqn:E.
  - apply String.eqb_eq in E. exfalso. apply Hnot. left. now symmetry.
  - apply IH. intros Hin. apply Hnot. now right.
Qed.

(** X16.  When the codes of [languages] are distinct and the current language is
    one of them, exactly one item of the list carries the check mark: the
    item of the current language, whose name is the one the button
    shows. *)
Theorem one_check_mark (languages : list (string * string))
  (language : string) :
  NoDup (map fst languages) -> In language (map fst languages) ->
  exists name : string,
    languageName languages language = Some name /\
    filter snd (languageItems languages language) =
      [(language, name, true)].
Proof.
  induction languages as [| [code name] l IH]; intros Hnd Hin;
    [contradiction |].
  cbn [map fst] in Hnd, Hin. apply NoDup_cons_iff in Hnd.
  destruct Hnd as [Hfresh Hnd].
  cbn [languageName languageItems map filter fst snd].
  destruct (String.eqb language code) eqn:E.
  - apply String.eqb_eq in E. subst code. exists name.
    split; [reflexivity |]. f_equal. now apply no_check_mark.
  - apply String.eqb_neq in E. destruct Hin as [Heq | Hin]; [congruence |].
    exact (IH Hnd Hin).
Qed.

Lemma one_check_mark_witness :
  exists name : string,
    languageName [("en", "English"); ("ta", "Tamil"); ("hi", "Hindi")] "ta" =
      Some name /\
    filter snd
      (languageItems [("en", "English"); ("ta", "Tamil"); ("hi", "Hindi")]
         "ta") = [("ta", name, true)].
Proof.
  apply one_check_mark.
  - repeat (apply NoDup_cons; [simpl; intuition discriminate |]).
    apply NoDup_nil.
  - simpl. auto.
Defined.
